(** * salary_calculator.py: insurance, progressive income tax and net salary

    A shallow embedding of the calculation part of [salary_calculator.py]
    (the module constants, [calculate_insurance], [calculate_tax] and the
    top-level statements that derive taxable income, income tax, net salary
    and the displayed bracket), followed by the properties of it that the
    specification states.

    Numbers.  The script computes with Python [int] and [float] values.
    The embedding is written once over an abstract number type (class
    [Number]) and read twice: over the rationals [Q], where the arithmetic
    is exact and the general theorems are proved, and over the kernel's
    binary64 floats, where concrete runs are evaluated with the roundings
    the interpreter performs.  The lemmas of the section [AnyArithmetic]
    hold in both readings; general statements about rounding are outside
    this development. *)

From Stdlib Require Import ZArith QArith Qminmax Lqa PrimFloat FloatOps SpecFloat.
From stdpp Require Import base option list gmap strings.

Set Warnings "-inexact-float".

(** ** Numbers *)

(** The arithmetic the script uses: [+ - * /], the comparisons [<=] and
    [>] (written [n_lt] with its arguments swapped), and integer
    literals. *)
Class Number (T : Type) := {
  n_add : T -> T -> T;
  n_sub : T -> T -> T;
  n_mul : T -> T -> T;
  n_div : T -> T -> T;
  n_le : T -> T -> bool;
  n_lt : T -> T -> bool;
  n_int : Z -> T
}.

Declare Scope num_scope.
Delimit Scope num_scope with num.
Infix "+" := n_add : num_scope.
Infix "-" := n_sub : num_scope.
Infix "*" := n_mul : num_scope.
Infix "/" := n_div : num_scope.
Infix "<=?" := n_le : num_scope.
Infix "<?" := n_lt : num_scope.

(** A decimal literal [m / d] with [d] a power of ten, such as [0.03]
    written [decimal 3 100].  Over [Q] it is the exact fraction; over
    binary64 the correctly rounded quotient of two exact integers is the
    double nearest to the decimal, which is the value the interpreter reads
    the literal as. *)
Definition decimal {T : Type} `{Number T} (m d : Z) : T := (n_int m / n_int d)%num.

#[export] Instance Q_number : Number Q := {|
  n_add := Qplus;
  n_sub := Qminus;
  n_mul := Qmult;
  n_div := Qdiv;
  n_le := Qle_bool;
  n_lt := fun a b => negb (Qle_bool b a);
  n_int := inject_Z
|}.

(** An integer as a double: exact for the integers below [2^53], which
    covers every integer the script writes. *)
Fixpoint float_of_pos (p : positive) : float :=
  match p with
  | xH => 1%float
  | xO q => PrimFloat.mul 2%float (float_of_pos q)
  | xI q => PrimFloat.add (PrimFloat.mul 2%float (float_of_pos q)) 1%float
  end.

Definition float_of_Z (z : Z) : float :=
  match z with
  | Z0 => 0%float
  | Zpos p => float_of_pos p
  | Zneg p => PrimFloat.opp (float_of_pos p)
  end.

#[export] Instance float_number : Number float := {|
  n_add := PrimFloat.add;
  n_sub := PrimFloat.sub;
  n_mul := PrimFloat.mul;
  n_div := PrimFloat.div;
  n_le := PrimFloat.leb;
  n_lt := PrimFloat.ltb;
  n_int := float_of_Z
|}.

(** The rational number a finite double stands for. *)
Definition float_to_Q (f : float) : option Q :=
  match Prim2SF f with
  | S754_zero _ => Some 0%Q
  | S754_finite s m e =>
      Some (inject_Z (if s then Zneg m else Zpos m) * Qpower 2 e)%Q
  | _ => None
  end.

(** ** The fragments of Python the script relies on *)

Module Py.

(** [l[i]]: a negative index counts from the end, an index out of range
    raises [IndexError] ([None]). *)
Definition getitem {A : Type} (l : list A) (i : Z) : option A :=
  let n := Z.of_nat (length l) in
  let j := if (i <? 0)%Z then (i + n)%Z else i in
  if ((j <? 0)%Z || (n <=? j)%Z)%bool then None else l !! Z.to_nat j.

(** [range(lo, hi)]. *)
Definition range (lo hi : Z) : list Z := seqZ lo (hi - lo).

(** [len(l)]. *)
Definition len {A : Type} (l : list A) : Z := Z.of_nat (length l).

(** [d[k]] on a dict: a missing key raises [KeyError] ([None]). *)
Definition dict_getitem {V : Type} (d : gmap string V) (k : string) : option V :=
  d !! k.

(** A dict literal keeps its items in insertion order; [values()] and
    [keys()] list them in that order. *)
Definition values {V : Type} (d : list (string * V)) : list V := d.*2.
Definition keys {V : Type} (d : list (string * V)) : list string := d.*1.

Section WithNumber.
Context {T : Type} `{Number T}.

(** [max(a, b)]: the first argument is kept unless the second is
    strictly greater. *)
Definition max (a b : T) : T := if (a <? b)%num then b else a.

(** [sum(xs)]: starts from the integer [0] and adds from the left. *)
Definition sum (xs : list T) : T := foldl n_add (n_int 0) xs.
End WithNumber.

(** [next(g, default)] on a generator whose successive items are computed
    by [items]: the first item that is produced, or [default] when the
    generator is exhausted.  An item is [None] when the generator's
    condition rejects it, and evaluating an item may raise (outer
    [None]).  Items after the first one produced are never evaluated. *)
Fixpoint next {A : Type} (items : list (option (option A))) (default : A)
  : option A :=
  match items with
  | [] => Some default
  | None :: _ => None
  | Some (Some v) :: _ => Some v
  | Some None :: rest => next rest default
  end.

End Py.

(** ** The calculator *)

Section Calculator.
Context {T : Type} `{Number T}.
Local Open Scope string_scope.
Local Open Scope num_scope.

(** Lines 6-8: the bracket table. *)
Definition TAX_BRACKETS : list T :=
  [n_int 0; n_int 3000; n_int 12000; n_int 25000; n_int 35000;
   n_int 55000; n_int 80000].
Definition TAX_RATES : list T :=
  [decimal 3 100; decimal 1 10; decimal 2 10; decimal 25 100;
   decimal 3 10; decimal 35 100; decimal 45 100].
Definition TAX_DEDUCTIONS : list T :=
  [n_int 0; n_int 210; n_int 1410; n_int 2660; n_int 4410; n_int 7160;
   n_int 15160].

(** Lines 46-54: [calculate_insurance(base, rates)].  The six lookups are
    evaluated in the order of the dict literal; the result lists the six
    items in that order. *)
Definition calculate_insurance (base : T) (rates : gmap string T)
  : option (list (string * T)) :=
  pension ← Py.dict_getitem rates "pension";
  medical ← Py.dict_getitem rates "medical";
  unemployment ← Py.dict_getitem rates "unemployment";
  injury ← Py.dict_getitem rates "injury";
  maternity ← Py.dict_getitem rates "maternity";
  housing ← Py.dict_getitem rates "housing";
  Some [("养老保险", base * pension / n_int 100);
        ("医疗保险", base * medical / n_int 100);
        ("失业保险", base * unemployment / n_int 100);
        ("工伤保险", base * injury / n_int 100);
        ("生育保险", base * maternity / n_int 100);
        ("住房公积金", base * housing / n_int 100)].

(** Lines 58-61: the body of the [for] loop of [calculate_tax] over the
    remaining indices [idx], and the [return] after the loop. *)
Fixpoint calculate_tax_loop (taxable_income : T) (idx : list Z) : option T :=
  match idx with
  | i :: rest =>
      bound ← Py.getitem TAX_BRACKETS i;
      if taxable_income <=? bound then
        rate ← Py.getitem TAX_RATES (i - 1);
        deduction ← Py.getitem TAX_DEDUCTIONS (i - 1);
        Some (taxable_income * rate - deduction)
      else calculate_tax_loop taxable_income rest
  | [] =>
      rate ← Py.getitem TAX_RATES (-1);
      deduction ← Py.getitem TAX_DEDUCTIONS (-1);
      Some (taxable_income * rate - deduction)
  end.

(** Lines 57-61: [calculate_tax(taxable_income)]. *)
Definition calculate_tax (taxable_income : T) : option T :=
  calculate_tax_loop taxable_income (Py.range 1 (Py.len TAX_BRACKETS)).

(** Lines 64-71: the rate dict built from the six sliders. *)
Definition insurance_rates
  (pension_rate medical_rate unemployment_rate injury_rate maternity_rate
     housing_rate : T) : gmap string T :=
  <["housing" := housing_rate]>
    (<["maternity" := maternity_rate]>
       (<["injury" := injury_rate]>
          (<["unemployment" := unemployment_rate]>
             (<["medical" := medical_rate]>
                (<["pension" := pension_rate]> ∅))))).

(** Line 73. *)
Definition total_insurance (insurance : list (string * T)) : T :=
  Py.sum (Py.values insurance).

(** Line 75. *)
Definition taxable_income (base_salary total_insurance special_deduction : T)
  : T :=
  Py.max (n_int 0)
    (base_salary - total_insurance - n_int 5000 - special_deduction).

(** Line 76. *)
Definition income_tax (taxable_income : T) : option T :=
  if n_int 0 <? taxable_income then calculate_tax taxable_income
  else Some (n_int 0).

(** Line 77. *)
Definition net_salary (base_salary total_insurance income_tax : T) : T :=
  base_salary - total_insurance - income_tax.

(** Lines 94-97: the items of the generator [(table[i-1] for i in idx if
    taxable_income <= TAX_BRACKETS[i])]. *)
Definition bracket_items (table : list T) (taxable_income : T)
    (idx : list Z) : list (option (option T)) :=
  (fun i : Z =>
     bound ← Py.getitem TAX_BRACKETS i;
     if taxable_income <=? bound then
       v ← Py.getitem table (i - 1); Some (Some v)
     else Some None) <$> idx.

(** Lines 94-95: [next] receives the generator over [range(1,
    len(TAX_BRACKETS))] and the default, which is evaluated before the
    generator is advanced. *)
Definition tax_rate (taxable_income : T) : option T :=
  let items :=
    bracket_items TAX_RATES taxable_income
      (Py.range 1 (Py.len TAX_BRACKETS)) in
  default ← Py.getitem TAX_RATES (-1);
  Py.next items default.

(** Lines 96-97. *)
Definition tax_deduction (taxable_income : T) : option T :=
  let items :=
    bracket_items TAX_DEDUCTIONS taxable_income
      (Py.range 1 (Py.len TAX_BRACKETS)) in
  default ← Py.getitem TAX_DEDUCTIONS (-1);
  Py.next items default.

(** What one run of the script computes from its inputs. *)
Record PayrollResult := {
  r_insurance : list (string * T);
  r_total_insurance : T;
  r_taxable_income : T;
  r_income_tax : T;
  r_net_salary : T;
  r_tax_rate : T;
  r_tax_deduction : T
}.

(** Lines 64-97 in order, from the values read in the sidebar. *)
Definition script
  (base_salary pension_rate medical_rate unemployment_rate housing_rate
     injury_rate maternity_rate special_deduction : T)
  : option PayrollResult :=
  let rates :=
    insurance_rates pension_rate medical_rate unemployment_rate injury_rate
      maternity_rate housing_rate in
  insurance ← calculate_insurance base_salary rates;
  let total := total_insurance insurance in
  let taxable := taxable_income base_salary total special_deduction in
  tax ← income_tax taxable;
  let net := net_salary base_salary total tax in
  rate ← tax_rate taxable;
  deduction ← tax_deduction taxable;
  Some {| r_insurance := insurance;
          r_total_insurance := total;
          r_taxable_income := taxable;
          r_income_tax := tax;
          r_net_salary := net;
          r_tax_rate := rate;
          r_tax_deduction := deduction |}.
End Calculator.

Arguments PayrollResult : clear implicits.

(** ** The rest of the page: presets, sidebar, analysis and report

    The widgets are Streamlit's; what the script fixes is their arguments
    (bounds, defaults) and the expressions it hands them.  The text
    formatting of the numbers is not modelled. *)

Module PyNum.

Section WithNumber.
Context {T : Type} `{Number T}.

(** [b == 0] on numbers, read from the two comparisons the class has. *)
Definition is_zero (b : T) : bool :=
  ((b <=? n_int 0)%num && (n_int 0 <=? b)%num)%bool.

(** [a / b]: a zero divisor raises [ZeroDivisionError] ([None]). *)
Definition truediv (a b : T) : option T :=
  if is_zero b then None else Some (a / b)%num.

(** [min(a, b)]: the first argument is kept unless the second is strictly
    smaller. *)
Definition min (a b : T) : T := if (b <? a)%num then b else a.
End WithNumber.

(** [d[k]] on a dict kept as its items in insertion order (the keys of a
    dict are distinct): a missing key raises [KeyError] ([None]). *)
Fixpoint odict_getitem {V : Type} (d : list (string * V)) (k : string)
  : option V :=
  match d with
  | [] => None
  | (k', v) :: rest => if decide (k = k') then Some v else odict_getitem rest k
  end.

End PyNum.

Section Page.
Context {T : Type} `{Number T}.
Local Open Scope string_scope.
Local Open Scope num_scope.

(** Lines 11-16: the preset of each city is a dict with the six keys
    [insurance_rates] also uses, written in the order pension, medical,
    unemployment, injury, maternity, housing. *)
Definition CITY_PRESETS : list (string * gmap string T) :=
  [("上海", insurance_rates (n_int 8) (n_int 2) (decimal 5 10) (decimal 2 10)
              (n_int 0) (n_int 7));
   ("北京", insurance_rates (n_int 8) (n_int 2) (decimal 5 10) (decimal 2 10)
              (n_int 0) (n_int 12));
   ("广州", insurance_rates (n_int 8) (n_int 2) (decimal 5 10) (decimal 2 10)
              (n_int 0) (n_int 5));
   ("深圳", insurance_rates (n_int 8) (n_int 2) (decimal 3 10) (decimal 2 10)
              (n_int 0) (n_int 5))].

(** Lines 34-40: a slider's preset key, minimum, maximum and step. *)
Record Slider := {
  sl_key : string;
  sl_min : T;
  sl_max : T;
  sl_step : T
}.

(** Lines 34-40, in the order the six sliders are created. *)
Definition SLIDERS : list Slider :=
  [{| sl_key := "pension"; sl_min := n_int 0; sl_max := n_int 20;
      sl_step := decimal 5 10 |};
   {| sl_key := "medical"; sl_min := n_int 0; sl_max := n_int 12;
      sl_step := decimal 5 10 |};
   {| sl_key := "unemployment"; sl_min := n_int 0; sl_max := n_int 2;
      sl_step := decimal 1 10 |};
   {| sl_key := "housing"; sl_min := n_int 0; sl_max := n_int 12;
      sl_step := decimal 5 10 |};
   {| sl_key := "injury"; sl_min := n_int 0; sl_max := n_int 2;
      sl_step := decimal 1 10 |};
   {| sl_key := "maternity"; sl_min := n_int 0; sl_max := n_int 1;
      sl_step := decimal 1 10 |}].

(** Line 27: the cities offered, and the one selected at first
    ([index=0]). *)
Definition city_options : list string := Py.keys CITY_PRESETS.
Definition default_city : option string := Py.getitem city_options 0.

(** Lines 26 and 43: the values the two number inputs start with. *)
Definition default_base_salary : T := n_int 15000.
Definition default_special_deduction : T := n_int 1000.

(** Lines 30-40: [preset = CITY_PRESETS[city]] and the default
    [preset[key]] of each slider, in the order of [SLIDERS]. *)
Definition slider_defaults (city : string) : option (list T) :=
  preset ← PyNum.odict_getitem CITY_PRESETS city;
  mapM (fun s => Py.dict_getitem preset (sl_key s)) SLIDERS.

(** A value a slider can hold lies between its minimum and its maximum
    (the step grid is not modelled). *)
Definition slider_admits (s : Slider) (v : T) : bool :=
  ((sl_min s <=? v) && (v <=? sl_max s))%bool.

(** The values the sidebar can hand to the script: a base salary and a
    special deduction that are at least the [min_value=0] of their number
    inputs (lines 26 and 43), and six rates within their sliders' bounds.
    The arguments are in the order of [script]. *)
Definition sidebar_admits
  (base_salary pension_rate medical_rate unemployment_rate housing_rate
     injury_rate maternity_rate special_deduction : T) : bool :=
  ((n_int 0 <=? base_salary)
   && forallb (fun sv => slider_admits sv.1 sv.2)
        (zip SLIDERS
           [pension_rate; medical_rate; unemployment_rate; housing_rate;
            injury_rate; maternity_rate])
   && (n_int 0 <=? special_deduction))%bool.

(** Lines 113-120: what the three progress bars receive and the three
    percentages written beside them. *)
Record Analysis := {
  bar_net : T;
  bar_insurance : T;
  bar_tax : T;
  pct_net : T;
  pct_insurance : T;
  pct_tax : T
}.

(** Lines 113-122: the bars when [base_salary > 0], the warning
    ([Some None]) otherwise.  Each quotient is written twice on its line,
    once for the bar and once for the text. *)
Definition analysis (base_salary : T) (res : PayrollResult T)
  : option (option Analysis) :=
  if n_int 0 <? base_salary then
    q_net ← PyNum.truediv (r_net_salary res) base_salary;
    q_insurance ← PyNum.truediv (r_total_insurance res) base_salary;
    q_tax ← PyNum.truediv (r_income_tax res) base_salary;
    Some (Some {| bar_net := PyNum.min (n_int 1) q_net;
                  bar_insurance := PyNum.min (n_int 1) q_insurance;
                  bar_tax := PyNum.min (n_int 1) q_tax;
                  pct_net := q_net * n_int 100;
                  pct_insurance := q_insurance * n_int 100;
                  pct_tax := q_tax * n_int 100 |})
  else Some None.

(** Lines 141-167: the numbers the report prints, in the order the
    f-string evaluates them. *)
Record Report := {
  rep_base_salary : T;
  rep_insurance : list (T * T);
  rep_taxable_income : T;
  rep_tax_rate_percent : T;
  rep_income_tax : T;
  rep_net_salary : T;
  rep_net_share : T;
  rep_insurance_share : T;
  rep_tax_share : T
}.

(** Lines 140-167: the body of [if st.button(...)].  Every insurance line
    pairs the amount looked up by its label with the rate of its slider;
    the three shares divide by the base salary, without the guard of
    line 113. *)
Definition report
  (base_salary pension_rate medical_rate unemployment_rate housing_rate
     injury_rate maternity_rate : T) (res : PayrollResult T)
  : option Report :=
  pension ← PyNum.odict_getitem (r_insurance res) "养老保险";
  medical ← PyNum.odict_getitem (r_insurance res) "医疗保险";
  unemployment ← PyNum.odict_getitem (r_insurance res) "失业保险";
  injury ← PyNum.odict_getitem (r_insurance res) "工伤保险";
  maternity ← PyNum.odict_getitem (r_insurance res) "生育保险";
  housing ← PyNum.odict_getitem (r_insurance res) "住房公积金";
  q_net ← PyNum.truediv (r_net_salary res) base_salary;
  q_insurance ← PyNum.truediv (r_total_insurance res) base_salary;
  q_tax ← PyNum.truediv (r_income_tax res) base_salary;
  Some {| rep_base_salary := base_salary;
          rep_insurance :=
            [(pension, pension_rate); (medical, medical_rate);
             (unemployment, unemployment_rate); (injury, injury_rate);
             (maternity, maternity_rate); (housing, housing_rate)];
          rep_taxable_income := r_taxable_income res;
          rep_tax_rate_percent := r_tax_rate res * n_int 100;
          rep_income_tax := r_income_tax res;
          rep_net_salary := r_net_salary res;
          rep_net_share := q_net * n_int 100;
          rep_insurance_share := q_insurance * n_int 100;
          rep_tax_share := q_tax * n_int 100 |}.

(** One run of the page: the calculation, the analysis, and the report
    when the button was pressed. *)
Definition page
  (base_salary pension_rate medical_rate unemployment_rate housing_rate
     injury_rate maternity_rate special_deduction : T) (button : bool)
  : option (PayrollResult T * option Analysis * option Report) :=
  res ← script base_salary pension_rate medical_rate unemployment_rate
          housing_rate injury_rate maternity_rate special_deduction;
  shown ← analysis base_salary res;
  if button then
    rep ← report base_salary pension_rate medical_rate unemployment_rate
            housing_rate injury_rate maternity_rate res;
    Some (res, shown, Some rep)
  else Some (res, shown, None).
End Page.

Arguments Slider : clear implicits.
Arguments Analysis : clear implicits.
Arguments Report : clear implicits.

(** The tax computed bracket by bracket, from [TAX_BRACKETS] and
    [TAX_RATES] alone: each rate applies to the part of the income between
    its bracket's lower bound and the next bound.  It is the reference the
    quick-deduction formula of [calculate_tax] is compared with. *)
Fixpoint bracketwise_tax (x : Q) (lowers rates : list Q) : Q :=
  match lowers, rates with
  | lo :: ((hi :: _) as lowers'), r :: rates' =>
      (r * Qmax 0 (Qmin x hi - lo) + bracketwise_tax x lowers' rates')%Q
  | [lo], r :: _ => (r * Qmax 0 (x - lo))%Q
  | _, _ => 0%Q
  end.

(** ** Proof automation *)

(** Splits on the first comparison of the goal, leaving [a <= b] or
    [b < a] in the context. *)
Ltac case_le :=
  match goal with
  | |- context [Qle_bool ?a ?b] =>
      let E := fresh "E" in
      destruct (Qle_bool a b) eqn:E;
      [ apply Qle_bool_iff in E
      | apply not_true_iff_false in E; rewrite Qle_bool_iff in E;
        apply Qnot_le_lt in E ]
  end.

(** Names every [Qmax] and [Qmin] of the goal and splits on which
    argument it is, dropping the impossible cases as they appear. *)
Ltac split_minmax :=
  repeat match goal with
         | |- context [Qmin ?a ?b] =>
             let v := fresh "v" in
             let Hv := fresh "Hv" in
             destruct (Q.min_spec a b) as [[? Hv]|[? Hv]];
             revert Hv; generalize (Qmin a b); intros v Hv
         end;
  repeat match goal with
         | |- context [Qmax ?a ?b] =>
             let v := fresh "v" in
             let Hv := fresh "Hv" in
             destruct (Q.max_spec a b) as [[? Hv]|[? Hv]];
             revert Hv; generalize (Qmax a b); intros v Hv;
             try lra
         end.

(** Writes the divisions by 100 as products, for linear arithmetic. *)
Ltac div100 :=
  unfold Qdiv in *; change (/ 100) with (1 # 100) in *.

(** Splits a run's taxable income into its two cases. *)
Ltac split_taxable H :=
  match type of H with
  | ?x == Qmax ?a ?b =>
      let Hm := fresh "Hm" in
      destruct (Q.max_spec a b) as [[? Hm]|[? Hm]]; rewrite Hm in H
  end.

(** ** Indexing facts *)

Lemma getitem_in_range {A : Type} (l : list A) (i : Z) :
  (0 <= i < Py.len l)%Z -> is_Some (Py.getitem l i).
Proof.
  unfold Py.len, Py.getitem. cbv zeta. intros [Hlo Hhi].
  rewrite (proj2 (Z.ltb_ge i 0) Hlo). cbv iota.
  rewrite (proj2 (Z.ltb_ge i 0) Hlo).
  rewrite (proj2 (Z.leb_gt (Z.of_nat (length l)) i) Hhi).
  cbn [orb]. apply lookup_lt_is_Some_2. lia.
Qed.

Lemma range_split (lo hi i : Z) :
  (lo <= i < hi)%Z ->
  Py.range lo hi = Py.range lo i ++ i :: Py.range (i + 1) hi.
Proof.
  intros [Hlo Hhi]. unfold Py.range.
  replace (hi - lo)%Z with ((i - lo) + (hi - i))%Z by lia.
  rewrite seqZ_app by lia.
  replace (lo + (i - lo))%Z with i by lia.
  rewrite (seqZ_cons i (hi - i)) by lia.
  repeat f_equal; lia.
Qed.

Lemma elem_of_range (lo hi j : Z) :
  j ∈ Py.range lo hi <-> (lo <= j < hi)%Z.
Proof. unfold Py.range. rewrite elem_of_seqZ. lia. Qed.

(** ** Properties that hold in every arithmetic

    The lemmas of this section use nothing about the numbers but the
    outcome of the comparisons, so they hold over [Q] and over binary64
    alike. *)

Section AnyArithmetic.
Context {T : Type} `{Number T}.
Local Open Scope num_scope.

(** The table lookups of [calculate_tax] all succeed, and the loop is the
    chain of its six comparisons. *)
Lemma calculate_tax_unfold (x : T) :
  calculate_tax x =
  if x <=? n_int 3000 then Some (x * decimal 3 100 - n_int 0)
  else if x <=? n_int 12000 then Some (x * decimal 1 10 - n_int 210)
  else if x <=? n_int 25000 then Some (x * decimal 2 10 - n_int 1410)
  else if x <=? n_int 35000 then Some (x * decimal 25 100 - n_int 2660)
  else if x <=? n_int 55000 then Some (x * decimal 3 10 - n_int 4410)
  else if x <=? n_int 80000 then Some (x * decimal 35 100 - n_int 7160)
  else Some (x * decimal 45 100 - n_int 15160).
Proof. reflexivity. Qed.

Lemma calculate_tax_total (x : T) : is_Some (calculate_tax x).
Proof.
  rewrite calculate_tax_unfold.
  repeat match goal with
         | |- context [if ?c then _ else _] => destruct c
         end; eauto.
Qed.

Lemma income_tax_total (x : T) : is_Some (income_tax x).
Proof.
  unfold income_tax. destruct (n_int 0 <? x); eauto using calculate_tax_total.
Qed.

(** The loop returns at the first index whose bound admits the income:
    the indices before it were all rejected. *)
Lemma loop_first_match (x : T) (pre post : list Z) (i : Z) (b r d : T) :
  Forall (fun j => exists bj,
              Py.getitem TAX_BRACKETS j = Some bj /\ (x <=? bj) = false) pre ->
  Py.getitem TAX_BRACKETS i = Some b ->
  (x <=? b) = true ->
  Py.getitem TAX_RATES (i - 1) = Some r ->
  Py.getitem TAX_DEDUCTIONS (i - 1) = Some d ->
  calculate_tax_loop x (pre ++ i :: post) = Some (x * r - d).
Proof.
  intros Hpre Hb Hle Hr Hd.
  induction Hpre as [|j pre' (bj & Hbj & Hrej) _ IH].
  - cbn [app calculate_tax_loop]. rewrite Hb. cbn [mbind option_bind].
    rewrite Hle, Hr. cbn [mbind option_bind]. rewrite Hd. reflexivity.
  - cbn [app calculate_tax_loop]. rewrite Hbj. cbn [mbind option_bind].
    rewrite Hrej. exact IH.
Qed.

(** When every index is rejected the loop falls through to the last
    tier. *)
Lemma loop_no_match (x : T) (idx : list Z) (r d : T) :
  Forall (fun j => exists bj,
              Py.getitem TAX_BRACKETS j = Some bj /\ (x <=? bj) = false) idx ->
  Py.getitem TAX_RATES (-1) = Some r ->
  Py.getitem TAX_DEDUCTIONS (-1) = Some d ->
  calculate_tax_loop x idx = Some (x * r - d).
Proof.
  intros Hidx Hr Hd.
  induction Hidx as [|j idx' (bj & Hbj & Hrej) _ IH].
  - cbn [calculate_tax_loop]. rewrite Hr. cbn [mbind option_bind].
    rewrite Hd. reflexivity.
  - cbn [calculate_tax_loop]. rewrite Hbj. cbn [mbind option_bind].
    rewrite Hrej. exact IH.
Qed.

(** The loop of [calculate_tax] and the two generators of the display
    walk the same indices with the same test, so the loop's result is
    the formula applied to what the two [next] calls return. *)
Lemma loop_next (x dr dd : T) (idx : list Z) :
  Py.getitem TAX_RATES (-1) = Some dr ->
  Py.getitem TAX_DEDUCTIONS (-1) = Some dd ->
  calculate_tax_loop x idx =
    (r ← Py.next (bracket_items TAX_RATES x idx) dr;
     d ← Py.next (bracket_items TAX_DEDUCTIONS x idx) dd;
     Some (x * r - d)).
Proof.
  intros Hr Hd. unfold bracket_items.
  induction idx as [|i rest IH].
  - cbn [calculate_tax_loop]. rewrite Hr, Hd. reflexivity.
  - cbn [calculate_tax_loop fmap list_fmap].
    destruct (Py.getitem TAX_BRACKETS i) as [b|]; [|reflexivity].
    cbn [mbind option_bind].
    destruct (x <=? b); [|exact IH].
    destruct (Py.getitem TAX_RATES (i - 1)) as [r|]; [|reflexivity].
    destruct (Py.getitem TAX_DEDUCTIONS (i - 1)) as [d|]; reflexivity.
Qed.

Lemma display_lookup (x : T) :
  exists t r d,
    calculate_tax x = Some t /\ tax_rate x = Some r /\
    tax_deduction x = Some d /\ t = x * r - d.
Proof.
  destruct (calculate_tax_total x) as [t Ht].
  pose proof Ht as Ht'. unfold calculate_tax in Ht'.
  rewrite (loop_next x (decimal 45 100) (n_int 15160)) in Ht'
    by reflexivity.
  unfold tax_rate, tax_deduction. cbn zeta.
  change (Py.getitem TAX_RATES (-1)) with (Some (decimal (T:=T) 45 100)).
  change (Py.getitem TAX_DEDUCTIONS (-1)) with (Some (n_int (T:=T) 15160)).
  cbn [mbind option_bind].
  destruct (Py.next (bracket_items TAX_RATES x _) _) as [r|];
    [|discriminate].
  cbn [mbind option_bind] in Ht'.
  destruct (Py.next (bracket_items TAX_DEDUCTIONS x _) _) as [d|];
    [|discriminate].
  cbn [mbind option_bind] in Ht'. injection Ht' as Ht'.
  exists t, r, d. repeat split; [assumption|symmetry; assumption].
Qed.

(** The script never raises: every lookup it makes is in range. *)
Lemma script_returns
  (base_salary pension_rate medical_rate unemployment_rate housing_rate
     injury_rate maternity_rate special_deduction : T) :
  exists insurance tax rate deduction,
    let total := total_insurance insurance in
    let taxable := taxable_income base_salary total special_deduction in
    calculate_insurance base_salary
      (insurance_rates pension_rate medical_rate unemployment_rate
         injury_rate maternity_rate housing_rate) = Some insurance /\
    income_tax taxable = Some tax /\
    tax_rate taxable = Some rate /\
    tax_deduction taxable = Some deduction /\
    script base_salary pension_rate medical_rate unemployment_rate
      housing_rate injury_rate maternity_rate special_deduction =
    Some {| r_insurance := insurance;
            r_total_insurance := total;
            r_taxable_income := taxable;
            r_income_tax := tax;
            r_net_salary := net_salary base_salary total tax;
            r_tax_rate := rate;
            r_tax_deduction := deduction |}.
Proof.
  unfold script.
  destruct (calculate_insurance base_salary _) as [insurance|] eqn:Hins;
    [|discriminate Hins].
  exists insurance. cbn [mbind option_bind].
  set (taxable := taxable_income _ _ _).
  destruct (income_tax_total taxable) as [tax Htax].
  destruct (display_lookup taxable) as (t & r & d & _ & Hr & Hd & _).
  exists tax, r, d. cbn zeta. fold taxable.
  rewrite Htax, Hr, Hd. repeat split; reflexivity.
Qed.

End AnyArithmetic.

(** ** Exact arithmetic: the script over the rationals *)

Section Exact.
Local Open Scope Q_scope.

Lemma Q_le_spec (a b : Q) : (a <=? b)%num = true <-> a <= b.
Proof. apply Qle_bool_iff. Qed.

Lemma Q_le_false (a b : Q) : (a <=? b)%num = false <-> b < a.
Proof.
  cbn [n_le Q_number]. rewrite <- not_true_iff_false, Qle_bool_iff.
  split; [apply Qnot_le_lt | apply Qlt_not_le].
Qed.

Lemma Q_lt_spec (a b : Q) : (a <? b)%num = true <-> a < b.
Proof.
  cbn [n_lt Q_number]. rewrite negb_true_iff. apply (Q_le_false b a).
Qed.

Lemma Q_lt_false (a b : Q) : (a <? b)%num = false <-> b <= a.
Proof.
  cbn [n_lt Q_number]. rewrite negb_false_iff. apply Qle_bool_iff.
Qed.

(** [calculate_tax] over [Q], with the literals in decimal. *)
Lemma calculate_tax_Q (x : Q) :
  calculate_tax x =
  if Qle_bool x 3000 then Some (x * 0.03 - 0)
  else if Qle_bool x 12000 then Some (x * 0.1 - 210)
  else if Qle_bool x 25000 then Some (x * 0.2 - 1410)
  else if Qle_bool x 35000 then Some (x * 0.25 - 2660)
  else if Qle_bool x 55000 then Some (x * 0.3 - 4410)
  else if Qle_bool x 80000 then Some (x * 0.35 - 7160)
  else Some (x * 0.45 - 15160).
Proof. reflexivity. Qed.

(** Python's [max(0, v)] is the larger of the two numbers. *)
Lemma max_Q (a b : Q) : Py.max a b == Qmax a b.
Proof.
  unfold Py.max. destruct (a <? b)%num eqn:E.
  - apply Q_lt_spec in E. symmetry. apply Q.max_r. lra.
  - apply Q_lt_false in E. symmetry. apply Q.max_l. exact E.
Qed.

Lemma taxable_income_nonneg (b t d : Q) : 0 <= taxable_income b t d.
Proof.
  unfold taxable_income. rewrite max_Q. apply Q.le_max_l.
Qed.

(** The tax of a non-negative income is non-negative. *)
Lemma calculate_tax_nonneg (x t : Q) :
  0 <= x -> calculate_tax x = Some t -> 0 <= t.
Proof.
  intros Hx. rewrite calculate_tax_Q.
  repeat case_le; intros [= <-]; lra.
Qed.

Lemma income_tax_nonneg (x t : Q) : income_tax x = Some t -> 0 <= t.
Proof.
  unfold income_tax. destruct (n_int 0 <? x)%num eqn:E.
  - apply Q_lt_spec in E. apply calculate_tax_nonneg.
    apply Qlt_le_weak, E.
  - intros [= <-]. apply Qle_refl.
Qed.

(** *** The bracket scan *)

(** C2: [calculate_tax] walks the upper bounds 3000, 12000, 25000, 35000,
    55000, 80000 in ascending order and returns
    [x * TAX_RATES[i-1] - TAX_DEDUCTIONS[i-1]] at the first index [i] whose
    bound is at least [x]; above 80000 it returns [x * 0.45 - 15160]; in
    particular the tax of 100000 is 29840. *)
Theorem calculate_tax_first_bracket (x : Q) :
  (Py.getitem TAX_BRACKETS <$> Py.range 1 (Py.len (TAX_BRACKETS (T:=Q)))
   = Some <$> [3000; 12000; 25000; 35000; 55000; 80000])
  /\ (forall (i : Z) (bound rate deduction : Q),
        (1 <= i < Py.len (TAX_BRACKETS (T:=Q)))%Z ->
        Py.getitem TAX_BRACKETS i = Some bound ->
        x <= bound ->
        (forall (j : Z) (bj : Q),
            (1 <= j < i)%Z -> Py.getitem TAX_BRACKETS j = Some bj ->
            ~ x <= bj) ->
        Py.getitem TAX_RATES (i - 1) = Some rate ->
        Py.getitem TAX_DEDUCTIONS (i - 1) = Some deduction ->
        calculate_tax x = Some (x * rate - deduction))
  /\ (80000 < x -> calculate_tax x = Some (x * 0.45 - 15160))
  /\ (exists t, calculate_tax 100000 = Some t /\ t == 29840).
Proof.
  split; [reflexivity|]. split; [|split].
  - intros i bound rate deduction Hi Hb Hle Hprev Hr Hd.
    unfold calculate_tax. rewrite (range_split 1 _ i) by exact Hi.
    refine (loop_first_match x _ _ i bound rate deduction _ Hb _ Hr Hd).
    + apply Forall_forall. intros j Hj. apply elem_of_range in Hj.
      destruct (getitem_in_range (TAX_BRACKETS (T:=Q)) j) as [bj Hbj];
        [lia|].
      exists bj. split; [exact Hbj|].
      apply Q_le_false, Qnot_le_lt, (Hprev j bj); [lia | exact Hbj].
    + apply Q_le_spec, Hle.
  - intros Hx. unfold calculate_tax.
    refine (loop_no_match x _ 0.45 15160 _ eq_refl eq_refl).
    repeat (apply List.Forall_cons;
            [eexists; split;
             [reflexivity
             |apply Q_le_false; refine (Qle_lt_trans _ 80000 _ _ Hx);
              apply Qle_bool_iff; reflexivity]|]).
    apply List.Forall_nil.
  - eexists. split; [reflexivity|]. reflexivity.
Qed.

Lemma calculate_tax_first_bracket_witness :
  7345 <= 12000 /\ ~ 7345 <= 3000 /\
  calculate_tax 7345 = Some (7345 * 0.1 - 210).
Proof.
  split; [lra|]. split; [apply Qlt_not_le; reflexivity|].
  apply (proj1 (proj2 (calculate_tax_first_bracket 7345)) 2%Z 12000 0.1 210).
  - unfold Py.len. simpl. lia.
  - reflexivity.
  - lra.
  - intros j bj Hj Hbj. assert (j = 1%Z) as -> by lia.
    injection Hbj as <-. apply Qlt_not_le. reflexivity.
  - reflexivity.
  - reflexivity.
Defined.

(** *** The displayed bracket *)

(** C10: for a positive taxable income [x] the rate and the quick
    deduction that the two [next(...)] lookups select for the display are
    those of the bracket [calculate_tax] used:
    [income_tax = calculate_tax(x) = x * tax_rate - tax_deduction]. *)
Theorem display_agrees_with_calculate_tax (x : Q) :
  0 < x ->
  exists t r d,
    calculate_tax x = Some t /\ income_tax x = Some t /\
    tax_rate x = Some r /\ tax_deduction x = Some d /\
    t = x * r - d.
Proof.
  intros Hx. destruct (display_lookup x) as (t & r & d & Ht & Hr & Hd & Heq).
  exists t, r, d. repeat split; try assumption.
  unfold income_tax.
  replace (n_int 0 <? x)%num with true; [exact Ht|].
  symmetry. apply Q_lt_spec, Hx.
Qed.

Lemma display_agrees_with_calculate_tax_witness :
  0 < 7345 /\
  exists t r d,
    calculate_tax 7345 = Some t /\ income_tax 7345 = Some t /\
    tax_rate 7345 = Some r /\ tax_deduction 7345 = Some d /\
    t = 7345 * r - d.
Proof.
  split; [lra|]. apply (display_agrees_with_calculate_tax 7345). lra.
Defined.

(** *** Insurance *)

(** The six lookups succeed on a rate set that has the six keys, and the
    result is the dict literal of lines 47-54. *)
Lemma calculate_insurance_complete
    (b : Q) (r : gmap string Q) (p m u i ma h : Q) :
  r !! "pension"%string = Some p -> r !! "medical"%string = Some m ->
  r !! "unemployment"%string = Some u -> r !! "injury"%string = Some i ->
  r !! "maternity"%string = Some ma -> r !! "housing"%string = Some h ->
  calculate_insurance b r =
    Some [("养老保险"%string, b * p / 100); ("医疗保险"%string, b * m / 100);
          ("失业保险"%string, b * u / 100); ("工伤保险"%string, b * i / 100);
          ("生育保险"%string, b * ma / 100);
          ("住房公积金"%string, b * h / 100)].
Proof.
  intros Hp Hm Hu Hi Hma Hh. unfold calculate_insurance, Py.dict_getitem.
  rewrite Hp, Hm, Hu, Hi, Hma, Hh. reflexivity.
Qed.

Lemma share_nonneg (b rate : Q) : 0 <= b -> 0 <= rate -> 0 <= b * rate / 100.
Proof.
  intros Hb Hr. apply Qle_shift_div_l; [reflexivity|].
  rewrite Qmult_0_l. apply Qmult_le_0_compat; assumption.
Qed.

(** C3: on a base salary [b >= 0] and a rate set whose six rates are
    [>= 0], [calculate_insurance] returns (it raises nothing) the breakdown
    whose six amounts are [b * rate / 100], each of them [>= 0].  The
    function is a function of its two arguments only. *)
Theorem calculate_insurance_amounts
    (b : Q) (r : gmap string Q) (p m u i ma h : Q) :
  0 <= b ->
  r !! "pension"%string = Some p -> r !! "medical"%string = Some m ->
  r !! "unemployment"%string = Some u -> r !! "injury"%string = Some i ->
  r !! "maternity"%string = Some ma -> r !! "housing"%string = Some h ->
  0 <= p -> 0 <= m -> 0 <= u -> 0 <= i -> 0 <= ma -> 0 <= h ->
  exists insurance,
    calculate_insurance b r = Some insurance /\
    Py.keys insurance =
      ["养老保险"; "医疗保险"; "失业保险"; "工伤保险"; "生育保险";
       "住房公积金"]%string /\
    Forall2 (fun amount rate => amount == b * rate / 100 /\ 0 <= amount)
      (Py.values insurance) [p; m; u; i; ma; h].
Proof.
  intros Hb Hp Hm Hu Hi Hma Hh Pp Pm Pu Pi Pma Ph.
  eexists. split; [eapply calculate_insurance_complete; eassumption|].
  split; [reflexivity|].
  repeat (constructor;
          [split; [reflexivity | apply share_nonneg; assumption]|]).
  constructor.
Qed.

Lemma calculate_insurance_amounts_witness :
  exists insurance,
    calculate_insurance 15000 (insurance_rates 8 2 0.5 0.2 0 7)
      = Some insurance /\
    Py.keys insurance =
      ["养老保险"; "医疗保险"; "失业保险"; "工伤保险"; "生育保险";
       "住房公积金"]%string /\
    Forall2 (fun amount rate => amount == 15000 * rate / 100 /\ 0 <= amount)
      (Py.values insurance) [8; 2; 0.5; 0.2; 0; 7].
Proof.
  apply (calculate_insurance_amounts 15000 (insurance_rates 8 2 0.5 0.2 0 7));
    first [reflexivity | lra].
Defined.

(** C7: the total insurance is the six amounts of
    [calculate_insurance(b, r)] added up, and over the rationals that sum
    equals [b * (sum of the six rates) / 100]. *)
Theorem total_insurance_is_rate_sum
    (b : Q) (r : gmap string Q) (p m u i ma h : Q) :
  0 <= b ->
  r !! "pension"%string = Some p -> r !! "medical"%string = Some m ->
  r !! "unemployment"%string = Some u -> r !! "injury"%string = Some i ->
  r !! "maternity"%string = Some ma -> r !! "housing"%string = Some h ->
  exists insurance,
    calculate_insurance b r = Some insurance /\
    Py.values insurance =
      [b * p / 100; b * m / 100; b * u / 100; b * i / 100; b * ma / 100;
       b * h / 100] /\
    total_insurance insurance
      == b * p / 100 + b * m / 100 + b * u / 100 + b * i / 100
         + b * ma / 100 + b * h / 100 /\
    total_insurance insurance == b * (p + m + u + i + ma + h) / 100.
Proof.
  intros _ Hp Hm Hu Hi Hma Hh.
  eexists. split; [eapply calculate_insurance_complete; eassumption|].
  split; [reflexivity|].
  unfold total_insurance, Py.sum, Py.values.
  cbn [fmap list_fmap snd foldl n_add n_int Q_number].
  change (inject_Z 0) with 0. split; field.
Qed.

Lemma total_insurance_is_rate_sum_witness :
  exists insurance,
    calculate_insurance 15000 (insurance_rates 8 2 0.5 0.2 0 7)
      = Some insurance /\
    total_insurance insurance == 15000 * (8 + 2 + 0.5 + 0.2 + 0 + 7) / 100 /\
    total_insurance insurance == 2655.
Proof.
  destruct (total_insurance_is_rate_sum 15000
              (insurance_rates 8 2 0.5 0.2 0 7) 8 2 0.5 0.2 0 7)
    as (insurance & Hins & _ & _ & Hsum); try reflexivity; [lra|].
  exists insurance. split; [exact Hins|]. split; [exact Hsum|].
  rewrite Hsum. reflexivity.
Defined.

(** *** Net salary *)

(** [script_returns] with the result named. *)
Lemma script_result (b p m u h i ma d : Q) :
  exists res,
    script b p m u h i ma d = Some res /\
    calculate_insurance b (insurance_rates p m u i ma h)
      = Some (r_insurance res) /\
    r_total_insurance res = total_insurance (r_insurance res) /\
    r_taxable_income res = taxable_income b (r_total_insurance res) d /\
    income_tax (r_taxable_income res) = Some (r_income_tax res) /\
    r_net_salary res
      = net_salary b (r_total_insurance res) (r_income_tax res) /\
    tax_rate (r_taxable_income res) = Some (r_tax_rate res) /\
    tax_deduction (r_taxable_income res) = Some (r_tax_deduction res).
Proof.
  destruct (script_returns b p m u h i ma d)
    as (ins & tax & rate & ded & Hins & Htax & Hrate & Hded & Hs).
  eexists. split; [exact Hs|]. cbn [r_insurance r_total_insurance
    r_taxable_income r_income_tax r_net_salary r_tax_rate r_tax_deduction].
  repeat split; assumption.
Qed.

Lemma income_tax_nonpositive (x : Q) : x <= 0 -> income_tax x = Some 0.
Proof.
  intros Hx. unfold income_tax.
  replace (n_int 0 <? x)%num with false; [reflexivity|].
  symmetry. apply Q_lt_false, Hx.
Qed.

Lemma income_tax_positive (x : Q) : 0 < x -> income_tax x = calculate_tax x.
Proof.
  intros Hx. unfold income_tax.
  replace (n_int 0 <? x)%num with true; [reflexivity|].
  symmetry. apply Q_lt_spec, Hx.
Qed.

Lemma taxable_income_clamped (b t d : Q) :
  b - t - 5000 - d <= 0 -> taxable_income b t d = 0.
Proof.
  intros Hle. unfold taxable_income, Py.max.
  replace (n_int 0 <? _)%num with false; [reflexivity|].
  symmetry. apply Q_lt_false, Hle.
Qed.

(** C1: the composition of lines 75-77.  For every base salary [b], total
    insurance [t] and special deduction [d]: the taxable income is
    [max(0, b - t - 5000 - d)], with the standard deduction 5000; the
    income tax is [calculate_tax] of it when it is positive and 0
    otherwise; the net salary is [b - t - income_tax].  The script computes
    its three results by exactly this composition, with [t] the total of
    the insurance breakdown. *)
Theorem net_salary_derivation (b d : Q) :
  (forall t : Q,
      let taxable := taxable_income b t d in
      taxable == Qmax 0 (b - t - 5000 - d) /\
      (0 < taxable -> income_tax taxable = calculate_tax taxable) /\
      (~ 0 < taxable -> income_tax taxable = Some 0) /\
      (forall tax : Q, net_salary b t tax = b - t - tax))
  /\ (forall p m u h i ma : Q,
         exists res,
           script b p m u h i ma d = Some res /\
           let t := r_total_insurance res in
           r_taxable_income res = taxable_income b t d /\
           income_tax (r_taxable_income res) = Some (r_income_tax res) /\
           r_net_salary res = net_salary b t (r_income_tax res)).
Proof.
  split.
  - intros t taxable. split; [apply max_Q|]. split; [|split].
    + apply income_tax_positive.
    + intros Hn. apply income_tax_nonpositive, Qnot_lt_le, Hn.
    + reflexivity.
  - intros p m u h i ma.
    destruct (script_result b p m u h i ma d)
      as (res & Hs & _ & _ & Hti & Htax & Hnet & _).
    exists res. cbv zeta. repeat split; assumption.
Qed.

Lemma net_salary_derivation_witness :
  0 < taxable_income 15000 2655 0 /\
  income_tax (taxable_income 15000 2655 0)
    = calculate_tax (taxable_income 15000 2655 0).
Proof.
  split; [reflexivity|].
  destruct (proj1 (net_salary_derivation 15000 0) 2655) as (_ & Hpos & _).
  apply Hpos. reflexivity.
Defined.

(** C6: whenever the derived taxable income is not positive, the income
    tax the script computes is exactly 0; it is negative for no input. *)
Theorem income_tax_zero_without_taxable_income (b p m u h i ma d : Q) :
  exists res,
    script b p m u h i ma d = Some res /\
    (b - r_total_insurance res - 5000 - d <= 0 ->
     r_taxable_income res = 0) /\
    (r_taxable_income res <= 0 -> r_income_tax res = 0) /\
    0 <= r_income_tax res.
Proof.
  destruct (script_result b p m u h i ma d)
    as (res & Hs & _ & _ & Hti & Htax & _).
  exists res. split; [exact Hs|]. split; [|split].
  - intros Hle. rewrite Hti. apply taxable_income_clamped, Hle.
  - intros Hle. apply income_tax_nonpositive in Hle. congruence.
  - apply (income_tax_nonneg _ _ Htax).
Qed.

Lemma income_tax_zero_without_taxable_income_witness :
  exists res,
    script 5000 8 2 0.5 7 0.2 0 0 = Some res /\
    r_taxable_income res = 0 /\ r_income_tax res = 0.
Proof.
  destruct (income_tax_zero_without_taxable_income 5000 8 2 0.5 7 0.2 0 0)
    as (res & Hs & Hclamp & Hzero & _).
  exists res. split; [exact Hs|].
  assert (Hti : r_taxable_income res = 0).
  { apply Hclamp. vm_compute in Hs. injection Hs as <-. vm_compute.
    discriminate. }
  split; [exact Hti|]. apply Hzero. rewrite Hti. apply Qle_refl.
Defined.

(** C9: in exact arithmetic net salary, total insurance and income tax add
    up to the base salary, for every input.  (With binary64 numbers the
    sum can miss the base salary in the last bits, see
    [partition_residue_binary64].) *)
Theorem components_partition_base_salary (b p m u h i ma d : Q) :
  exists res,
    script b p m u h i ma d = Some res /\
    r_net_salary res + r_total_insurance res + r_income_tax res == b.
Proof.
  destruct (script_result b p m u h i ma d)
    as (res & Hs & _ & _ & _ & _ & Hnet & _).
  exists res. split; [exact Hs|].
  rewrite Hnet. unfold net_salary. cbn [n_sub Q_number]. ring.
Qed.

(** *** Shape of the tax function *)

(** C4: [calculate_tax] is monotonically non-decreasing, across bracket
    boundaries included. *)
Theorem calculate_tax_monotone (x y : Q) :
  x <= y ->
  exists tx ty,
    calculate_tax x = Some tx /\ calculate_tax y = Some ty /\ tx <= ty.
Proof.
  intros Hxy. rewrite !calculate_tax_Q.
  repeat case_le; eexists _, _;
    (split; [reflexivity | split; [reflexivity | lra]]).
Qed.

Lemma calculate_tax_monotone_witness :
  3000 <= 3001 /\
  exists tx ty,
    calculate_tax 3000 = Some tx /\ calculate_tax 3001 = Some ty /\ tx <= ty.
Proof.
  split; [lra|]. apply (calculate_tax_monotone 3000 3001). lra.
Defined.

(** The tax never grows faster than the top rate: together with
    monotonicity this bounds the change of the tax between any two incomes,
    so the function has no jump anywhere. *)
Lemma calculate_tax_lipschitz (x y : Q) :
  x <= y ->
  exists tx ty,
    calculate_tax x = Some tx /\ calculate_tax y = Some ty /\
    ty - tx <= 0.45 * (y - x).
Proof.
  intros Hxy. rewrite !calculate_tax_Q.
  repeat case_le; eexists _, _;
    (split; [reflexivity | split; [reflexivity | lra]]).
Qed.

(** C5: at each of the six finite boundaries the formula of the tier that
    ends there and the formula of the tier that starts there give the same
    tax, with the rates 3%, 10%, 20%, 25%, 30%, 35%, 45% and the quick
    deductions 0, 210, 1410, 2660, 4410, 7160, 15160 of the table; the
    common value is what [calculate_tax] returns at the boundary. *)
Theorem tax_continuous_at_boundaries :
  TAX_BRACKETS = [0; 3000; 12000; 25000; 35000; 55000; 80000]
  /\ TAX_RATES = [0.03; 0.1; 0.2; 0.25; 0.3; 0.35; 0.45]
  /\ TAX_DEDUCTIONS = [0; 210; 1410; 2660; 4410; 7160; 15160]
  /\ forall (i : Z) (b : Q),
       (1 <= i < Py.len (TAX_BRACKETS (T:=Q)))%Z ->
       Py.getitem TAX_BRACKETS i = Some b ->
       exists r0 d0 r1 d1,
         Py.getitem TAX_RATES (i - 1) = Some r0 /\
         Py.getitem TAX_DEDUCTIONS (i - 1) = Some d0 /\
         Py.getitem TAX_RATES i = Some r1 /\
         Py.getitem TAX_DEDUCTIONS i = Some d1 /\
         b * r0 - d0 == b * r1 - d1 /\
         calculate_tax b = Some (b * r0 - d0).
Proof.
  repeat (split; [reflexivity|]).
  intros i b Hi Hb.
  assert (i = 1 \/ i = 2 \/ i = 3 \/ i = 4 \/ i = 5 \/ i = 6)%Z
    as Hcases by (unfold Py.len in Hi; simpl in Hi; lia).
  repeat (destruct Hcases as [->|Hcases]); try subst i;
    injection Hb as <-;
    eexists _, _, _, _; repeat (split; [reflexivity|]); reflexivity.
Qed.

Lemma tax_continuous_at_boundaries_witness :
  12000 * 0.1 - 210 == 12000 * 0.2 - 1410 /\
  calculate_tax 12000 = Some (12000 * 0.1 - 210).
Proof.
  destruct tax_continuous_at_boundaries as (_ & _ & _ & Hcont).
  destruct (Hcont 2%Z 12000) as (r0 & d0 & r1 & d1 & Hr0 & Hd0 & Hr1 & Hd1 & Heq & Htax).
  - unfold Py.len. simpl. lia.
  - reflexivity.
  - injection Hr0 as <-. injection Hd0 as <-.
    injection Hr1 as <-. injection Hd1 as <-.
    split; [exact Heq | exact Htax].
Defined.

(** *** The worked example *)

(** C8: base salary 15000, rates pension 8, medical 2, unemployment 0.5,
    injury 0.2, maternity 0, housing 7, special deduction 0 (the arguments
    of [script] are in the order base, pension, medical, unemployment,
    housing, injury, maternity, special deduction): total insurance 2655,
    taxable income 7345, which falls in the bracket up to 12000 with rate
    10% and quick deduction 210, income tax 524.50, net salary 11820.50. *)
Theorem worked_example_15000 :
  exists res,
    script 15000 8 2 0.5 7 0.2 0 0 = Some res /\
    r_total_insurance res == 2655 /\
    r_taxable_income res == 7345 /\
    ~ r_taxable_income res <= 3000 /\ r_taxable_income res <= 12000 /\
    r_tax_rate res == 0.1 /\
    r_tax_deduction res == 210 /\
    r_income_tax res == 524.5 /\
    r_net_salary res == 11820.5.
Proof.
  eexists. split; [vm_compute; reflexivity|].
  cbn [r_total_insurance r_taxable_income r_tax_rate r_tax_deduction
         r_income_tax r_net_salary].
  repeat split; try reflexivity.
  - apply Qlt_not_le. reflexivity.
  - apply Qle_bool_iff. reflexivity.
Qed.

End Exact.

(** ** Binary64: the worked examples as the interpreter computes them *)

Section Binary64.
Local Open Scope float_scope.

(** The literals of the script are the doubles that [n_int] and [decimal]
    build. *)
Lemma literals_binary64 :
  TAX_BRACKETS (T:=float) = [0; 3000; 12000; 25000; 35000; 55000; 80000]
  /\ TAX_RATES (T:=float) = [0.03; 0.1; 0.2; 0.25; 0.3; 0.35; 0.45]
  /\ TAX_DEDUCTIONS (T:=float) = [0; 210; 1410; 2660; 4410; 7160; 15160]
  /\ n_int 100 = 100 /\ n_int 5000 = 5000
  /\ decimal 5 10 = 0.5 /\ decimal 2 10 = 0.2.
Proof. repeat split; reflexivity. Qed.

(** The example of C8 in binary64: every displayed value is exact. *)
Lemma worked_example_15000_binary64 :
  exists res,
    script 15000 8 2 0.5 7 0.2 0 0 = Some res /\
    r_total_insurance res = 2655 /\
    r_taxable_income res = 7345 /\
    r_tax_rate res = 0.1 /\
    r_tax_deduction res = 210 /\
    r_income_tax res = 524.5 /\
    r_net_salary res = 11820.5.
Proof.
  eexists. split; [vm_compute; reflexivity|]. repeat split; reflexivity.
Qed.

(** The top bracket of C2 in binary64. *)
Lemma top_bracket_binary64 : calculate_tax 100000 = Some 29840.
Proof. reflexivity. Qed.

(** The six boundaries of C5 in binary64: both formulas round to the same
    double. *)
Lemma boundaries_binary64 :
  Forall (fun i : Z =>
            exists b r0 d0 r1 d1,
              Py.getitem TAX_BRACKETS i = Some b /\
              Py.getitem TAX_RATES (i - 1) = Some r0 /\
              Py.getitem TAX_DEDUCTIONS (i - 1) = Some d0 /\
              Py.getitem TAX_RATES i = Some r1 /\
              Py.getitem TAX_DEDUCTIONS i = Some d1 /\
              (b * r0 - d0)%num = (b * r1 - d1)%num /\
              calculate_tax b = Some (b * r0 - d0)%num)
    (Py.range 1 (Py.len (TAX_BRACKETS (T:=float)))).
Proof.
  repeat (apply List.Forall_cons;
          [eexists _, _, _, _, _; repeat (split; [reflexivity|]);
           reflexivity|]).
  apply List.Forall_nil.
Qed.

(** Stepping over a boundary: the tax of the first double above each
    bound is not below the tax at the bound. *)
Lemma above_boundaries_binary64 :
  Forall (fun i : Z =>
            exists b t t',
              Py.getitem TAX_BRACKETS i = Some b /\
              calculate_tax b = Some t /\
              calculate_tax (PrimFloat.next_up b) = Some t' /\
              PrimFloat.leb t t' = true)
    (Py.range 1 (Py.len (TAX_BRACKETS (T:=float)))).
Proof.
  repeat (apply List.Forall_cons;
          [eexists _, _, _; repeat (split; [reflexivity|]); reflexivity|]).
  apply List.Forall_nil.
Qed.

(** A taxable income of 0 gives the integer 0 as tax. *)
Lemma zero_income_binary64 :
  taxable_income 5000 885 0 = 0 /\ income_tax 0 = Some 0.
Proof. split; reflexivity. Qed.

(** C9 read in binary64, at base salary 7300 with the preset rates of the
    first city and the special deduction 1000 the form starts with: the
    three results are 6007.6629999999996, 1292.0999999999999 and
    0.23699999999998908; added as doubles they give 7299.999999999999, and
    the rationals they stand for do not add up to 7300 either. *)
Lemma partition_residue_binary64 :
  exists res,
    script 7300 8 2 0.5 7 0.2 0 1000 = Some res /\
    r_net_salary res = 6007.6629999999996 /\
    r_total_insurance res = 1292.0999999999999 /\
    r_income_tax res = 0.23699999999998908 /\
    PrimFloat.eqb
      (r_net_salary res + r_total_insurance res + r_income_tax res) 7300
      = false /\
    exists n t x : Q,
      float_to_Q (r_net_salary res) = Some n /\
      float_to_Q (r_total_insurance res) = Some t /\
      float_to_Q (r_income_tax res) = Some x /\
      ~ (n + t + x == 7300)%Q.
Proof.
  eexists. split; [vm_compute; reflexivity|].
  cbn [r_net_salary r_total_insurance r_income_tax].
  repeat (split; [reflexivity|]).
  eexists _, _, _. repeat (split; [vm_compute; reflexivity|]).
  intros Heq. vm_compute in Heq. discriminate Heq.
Qed.

End Binary64.

(** ** Further properties of the calculation *)

Section MissingKeys.
Context {T : Type} `{Number T}.

(** X1: [calculate_insurance] raises [KeyError] exactly when one of the
    six keys is missing from [rates]; keys beyond the six play no part. *)
Theorem calculate_insurance_needs_six_keys (base : T) (rates : gmap string T) :
  is_Some (calculate_insurance base rates) <->
  Forall (fun key => is_Some (rates !! key))
    ["pension"; "medical"; "unemployment"; "injury"; "maternity";
     "housing"]%string.
Proof.
  unfold calculate_insurance, Py.dict_getitem. split.
  - intros Hsome.
    repeat match goal with
           | Hs : is_Some (mbind _ (?r !! ?k)) |- _ =>
               let v := fresh "v" in
               let E := fresh "E" in
               destruct (r !! k) as [v|] eqn:E;
               [cbn [mbind option_bind] in Hs
               |cbn [mbind option_bind] in Hs; destruct Hs; discriminate]
           end.
    repeat (apply List.Forall_cons; [eauto|]). apply List.Forall_nil.
  - intros Hall.
    repeat match goal with
           | Hf : Forall _ (_ :: _) |- _ =>
               let Hk := fresh "Hk" in
               apply Forall_cons in Hf; destruct Hf as [[? Hk] Hf];
               rewrite Hk; cbn [mbind option_bind]
           end.
    eauto.
Qed.

End MissingKeys.

Section TaxShape.
Local Open Scope Q_scope.


(** X3: in exact arithmetic, between two incomes the tax rises by at least
    3% and at most 45% of the difference, so a higher income pays strictly
    more tax and keeps strictly more after tax.  (The doubles follow this
    only up to rounding: [marginal_rate_binary64].) *)
Theorem calculate_tax_marginal_rate (x y : Q) :
  x <= y ->
  exists tx ty,
    calculate_tax x = Some tx /\ calculate_tax y = Some ty /\
    0.03 * (y - x) <= ty - tx /\ ty - tx <= 0.45 * (y - x).
Proof.
  intros Hxy. rewrite !calculate_tax_Q.
  repeat case_le; eexists _, _;
    (split; [reflexivity | split; [reflexivity | split; lra]]).
Qed.

Lemma calculate_tax_marginal_rate_witness :
  12000 <= 13000 /\
  exists tx ty,
    calculate_tax 12000 = Some tx /\ calculate_tax 13000 = Some ty /\
    0.03 * (13000 - 12000) <= ty - tx /\ ty - tx <= 0.45 * (13000 - 12000).
Proof.
  split; [lra|]. apply (calculate_tax_marginal_rate 12000 13000). lra.
Defined.

(** The tax on [x] is at most the rate of [x]'s bracket applied to all of
    [x], and a later income pays at least that rate on the excess. *)
Lemma calculate_tax_chord (x y : Q) :
  0 < x -> x <= y ->
  exists r tx ty,
    calculate_tax x = Some tx /\ calculate_tax y = Some ty /\
    0 <= r /\ tx <= r * x /\ r * (y - x) <= ty - tx.
Proof.
  intros Hx Hxy. rewrite !calculate_tax_Q.
  case_le; [exists 0.03|case_le; [exists 0.1|case_le; [exists 0.2|
    case_le; [exists 0.25|case_le; [exists 0.3|case_le;
      [exists 0.35|exists 0.45]]]]]];
    repeat case_le; eexists _, _;
    (split; [reflexivity | split; [reflexivity | repeat split; lra]]).
Qed.

(** X4: in exact arithmetic the tax is progressive: the share of the
    income that goes to tax never falls as the income grows
    ([tax(x)/x <= tax(y)/y], written without the divisions).  (The doubles
    follow this only up to rounding: [progressive_binary64].) *)
Theorem calculate_tax_progressive (x y : Q) :
  0 < x -> x <= y ->
  exists tx ty,
    calculate_tax x = Some tx /\ calculate_tax y = Some ty /\
    tx * y <= ty * x.
Proof.
  intros Hx Hxy.
  destruct (calculate_tax_chord x y Hx Hxy)
    as (r & tx & ty & Htx & Hty & Hr & Hup & Hslope).
  exists tx, ty. split; [exact Htx|]. split; [exact Hty|].
  assert (H1 : 0 <= (r * x - tx) * (y - x))
    by (apply Qmult_le_0_compat; lra).
  assert (H2 : 0 <= (ty - tx - r * (y - x)) * x)
    by (apply Qmult_le_0_compat; lra).
  nra.
Qed.

Lemma calculate_tax_progressive_witness :
  0 < 3000 /\ 3000 <= 100000 /\
  exists tx ty,
    calculate_tax 3000 = Some tx /\ calculate_tax 100000 = Some ty /\
    tx * 100000 <= ty * 3000.
Proof.
  split; [lra|]. split; [lra|].
  apply (calculate_tax_progressive 3000 100000); lra.
Defined.

Lemma bracketwise_tax_Q (x : Q) :
  bracketwise_tax x TAX_BRACKETS TAX_RATES =
  0.03 * Qmax 0 (Qmin x 3000 - 0) +
  (0.1 * Qmax 0 (Qmin x 12000 - 3000) +
   (0.2 * Qmax 0 (Qmin x 25000 - 12000) +
    (0.25 * Qmax 0 (Qmin x 35000 - 25000) +
     (0.3 * Qmax 0 (Qmin x 55000 - 35000) +
      (0.35 * Qmax 0 (Qmin x 80000 - 55000) +
       0.45 * Qmax 0 (x - 80000)))))).
Proof. reflexivity. Qed.

(** X5: in exact arithmetic, with the decimals of the three tables read
    as rationals, the quick deductions are the right ones for the
    brackets and rates: on a non-negative income [calculate_tax] equals
    the tax computed bracket by bracket, each rate applied to the part of
    the income inside its bracket.  (The doubles agree only up to
    rounding: [bracketwise_binary64].) *)
Theorem quick_deduction_is_bracketwise (x : Q) :
  0 <= x ->
  exists t,
    calculate_tax x = Some t /\
    t == bracketwise_tax x TAX_BRACKETS TAX_RATES.
Proof.
  intros Hx. rewrite calculate_tax_Q, bracketwise_tax_Q.
  repeat case_le; eexists; (split; [reflexivity|]);
    split_minmax; lra.
Qed.

Lemma quick_deduction_is_bracketwise_witness :
  0 <= 30000 /\
  exists t,
    calculate_tax 30000 = Some t /\
    t == bracketwise_tax 30000 TAX_BRACKETS TAX_RATES.
Proof.
  split; [lra|]. apply (quick_deduction_is_bracketwise 30000). lra.
Defined.

End TaxShape.

(** ** Properties of a whole run *)

Section Run.
Local Open Scope Q_scope.

Lemma sidebar_admits_Q (b p m u h i ma d : Q) :
  sidebar_admits b p m u h i ma d = true <->
  0 <= b /\ (0 <= p /\ p <= 20) /\ (0 <= m /\ m <= 12) /\
  (0 <= u /\ u <= 2) /\ (0 <= h /\ h <= 12) /\ (0 <= i /\ i <= 2) /\
  (0 <= ma /\ ma <= 1) /\ 0 <= d.
Proof.
  unfold sidebar_admits, SLIDERS, slider_admits.
  cbn [zip zip_with forallb fst snd sl_min sl_max n_le n_int Q_number].
  rewrite !andb_true_iff, !Qle_bool_iff.
  change (inject_Z 0) with 0. change (inject_Z 20) with 20.
  change (inject_Z 12) with 12. change (inject_Z 2) with 2.
  change (inject_Z 1) with 1.
  tauto.
Qed.

Lemma is_zero_Q (b : Q) : PyNum.is_zero b = true <-> b == 0.
Proof.
  unfold PyNum.is_zero. cbn [n_le n_int Q_number].
  rewrite andb_true_iff, !Qle_bool_iff. change (inject_Z 0) with 0.
  split; [intros [H1 H2]; apply Qle_antisym; assumption|].
  intros ->. split; apply Qle_refl.
Qed.

Lemma truediv_Q (a b : Q) : ~ b == 0 -> PyNum.truediv a b = Some (a / b).
Proof.
  intros Hb. unfold PyNum.truediv.
  destruct (PyNum.is_zero b) eqn:E; [|reflexivity].
  apply is_zero_Q in E. contradiction.
Qed.

Lemma min_one_Q (q : Q) : q <= 1 -> PyNum.min 1 q == q.
Proof.
  intros Hq. unfold PyNum.min. destruct (q <? 1)%num eqn:E; [reflexivity|].
  apply Q_lt_false in E. apply Qle_antisym; assumption.
Qed.

(** What a run computes, from [script_result], with the breakdown and its
    total written out. *)
Lemma script_facts (b p m u h i ma d : Q) :
  exists res,
    script b p m u h i ma d = Some res /\
    r_insurance res =
      [("养老保险"%string, b * p / 100); ("医疗保险"%string, b * m / 100);
       ("失业保险"%string, b * u / 100); ("工伤保险"%string, b * i / 100);
       ("生育保险"%string, b * ma / 100);
       ("住房公积金"%string, b * h / 100)] /\
    r_total_insurance res == b * (p + m + u + i + ma + h) / 100 /\
    r_taxable_income res == Qmax 0 (b - r_total_insurance res - 5000 - d) /\
    income_tax (r_taxable_income res) = Some (r_income_tax res) /\
    r_net_salary res == b - r_total_insurance res - r_income_tax res /\
    tax_rate (r_taxable_income res) = Some (r_tax_rate res) /\
    tax_deduction (r_taxable_income res) = Some (r_tax_deduction res).
Proof.
  destruct (script_result b p m u h i ma d)
    as (res & Hs & Hins & Htot & Hti & Htax & Hnet & Hrate & Hded).
  exists res. split; [exact Hs|].
  rewrite (calculate_insurance_complete b _ p m u i ma h) in Hins
    by reflexivity.
  injection Hins as Hins.
  split; [symmetry; exact Hins|]. split; [|split; [|split; [|split]]].
  - rewrite Htot, <- Hins. unfold total_insurance, Py.sum, Py.values.
    cbn [fmap list_fmap snd foldl n_add n_int Q_number].
    change (inject_Z 0) with 0. field.
  - rewrite Hti. apply max_Q.
  - exact Htax.
  - rewrite Hnet. reflexivity.
  - split; assumption.
Qed.

Lemma income_tax_between (x t : Q) :
  0 <= x -> income_tax x = Some t -> 0.03 * x <= t /\ t <= 0.45 * x.
Proof.
  intros Hx. unfold income_tax. destruct (n_int 0 <? x)%num eqn:E.
  - rewrite calculate_tax_Q. repeat case_le; intros [= <-]; split; lra.
  - apply Q_lt_false in E. change (n_int 0) with 0 in E.
    intros [= <-]. change (inject_Z 0) with 0. split; lra.
Qed.

Lemma income_tax_step (x y tx ty : Q) :
  0 <= x -> x <= y ->
  income_tax x = Some tx -> income_tax y = Some ty ->
  0 <= ty - tx /\ ty - tx <= 0.45 * (y - x).
Proof.
  intros Hx Hxy. unfold income_tax.
  destruct (n_int 0 <? x)%num eqn:Ex; destruct (n_int 0 <? y)%num eqn:Ey;
    [apply Q_lt_spec in Ex|apply Q_lt_spec in Ex|apply Q_lt_false in Ex
    |apply Q_lt_false in Ex];
    [apply Q_lt_spec in Ey|apply Q_lt_false in Ey|apply Q_lt_spec in Ey
    |apply Q_lt_false in Ey];
    change (n_int 0) with 0 in *; rewrite ?calculate_tax_Q;
    repeat case_le; intros [= <-] [= <-]; change (inject_Z 0) with 0;
    split; lra.
Qed.


(** X7: on what the sidebar can deliver, income tax is charged exactly
    when the taxable income shown is positive, and is 0 exactly when that
    taxable income is 0. *)
Theorem income_tax_positive_iff_taxable (b p m u h i ma d : Q) :
  sidebar_admits b p m u h i ma d = true ->
  exists res,
    script b p m u h i ma d = Some res /\
    (0 < r_income_tax res <-> 0 < r_taxable_income res) /\
    (r_income_tax res == 0 <-> r_taxable_income res == 0).
Proof.
  intros _.
  destruct (script_facts b p m u h i ma d)
    as (res & Hs & _ & _ & Hti & Htax & _).
  exists res. split; [exact Hs|].
  assert (Hx : 0 <= r_taxable_income res)
    by (rewrite Hti; apply Q.le_max_l).
  destruct (income_tax_between _ _ Hx Htax) as [Hlo Hhi].
  repeat split; intros; lra.
Qed.

Lemma income_tax_positive_iff_taxable_witness :
  sidebar_admits 15000 8 2 0.5 7 0.2 0 1000 = true /\
  exists res,
    script 15000 8 2 0.5 7 0.2 0 1000 = Some res /\
    (0 < r_income_tax res <-> 0 < r_taxable_income res) /\
    (r_income_tax res == 0 <-> r_taxable_income res == 0).
Proof.
  split; [reflexivity|].
  apply (income_tax_positive_iff_taxable 15000 8 2 0.5 7 0.2 0 1000).
  reflexivity.
Defined.

(** The bounds of a run on admitted inputs, with the net salary written
    out; shared by the properties of the analysis. *)
Lemma run_bounds_aux (b p m u h i ma d : Q) :
  sidebar_admits b p m u h i ma d = true ->
  exists res,
    script b p m u h i ma d = Some res /\
    0 <= r_total_insurance res /\ r_total_insurance res <= 0.49 * b /\
    0 <= r_taxable_income res /\ r_taxable_income res <= b /\
    0 <= r_income_tax res /\
    r_income_tax res <= 0.45 * r_taxable_income res /\
    0 <= r_net_salary res /\ r_net_salary res <= b /\
    r_net_salary res == b - r_total_insurance res - r_income_tax res.
Proof.
  intros Hadm. apply sidebar_admits_Q in Hadm.
  destruct Hadm as (Hb & Hp & Hm & Hu & Hh & Hi & Hma & Hd).
  destruct (script_facts b p m u h i ma d)
    as (res & Hs & _ & Htot & Hti & Htax & Hnet & _).
  exists res. split; [exact Hs|].
  assert (Hx : 0 <= r_taxable_income res)
    by (rewrite Hti; apply Q.le_max_l).
  destruct (income_tax_between _ _ Hx Htax) as [Hlo Hhi].
  set (s := p + m + u + i + ma + h) in *.
  assert (Hs0 : 0 <= b * s) by (apply Qmult_le_0_compat; unfold s; lra).
  assert (Hs1 : 0 <= b * (49 - s))
    by (apply Qmult_le_0_compat; unfold s; lra).
  div100.
  split_taxable Hti; repeat split; lra.
Qed.

(** X8: on what the sidebar can deliver, nothing leaves its range: the
    total insurance, the taxable income and the net salary each lie
    between 0 and the base salary, and the income tax between 0 and the
    taxable income. *)
Theorem run_within_bounds (b p m u h i ma d : Q) :
  sidebar_admits b p m u h i ma d = true ->
  exists res,
    script b p m u h i ma d = Some res /\
    0 <= r_total_insurance res /\ r_total_insurance res <= b /\
    0 <= r_taxable_income res /\ r_taxable_income res <= b /\
    0 <= r_income_tax res /\ r_income_tax res <= r_taxable_income res /\
    0 <= r_net_salary res /\ r_net_salary res <= b.
Proof.
  intros Hadm.
  destruct (run_bounds_aux b p m u h i ma d Hadm)
    as (res & Hs & Ht0 & Ht1 & Hx0 & Hx1 & Hi0 & Hi1 & Hn0 & Hn1 & _).
  apply sidebar_admits_Q in Hadm. destruct Hadm as (Hb & _).
  exists res. split; [exact Hs|]. repeat split; lra.
Qed.

Lemma run_within_bounds_witness :
  sidebar_admits 15000 8 2 0.5 7 0.2 0 1000 = true /\
  exists res,
    script 15000 8 2 0.5 7 0.2 0 1000 = Some res /\
    0 <= r_total_insurance res /\ r_total_insurance res <= 15000 /\
    0 <= r_taxable_income res /\ r_taxable_income res <= 15000 /\
    0 <= r_income_tax res /\ r_income_tax res <= r_taxable_income res /\
    0 <= r_net_salary res /\ r_net_salary res <= 15000.
Proof.
  split; [reflexivity|].
  apply (run_within_bounds 15000 8 2 0.5 7 0.2 0 1000). reflexivity.
Defined.



(** X10: a larger special deduction never raises the income tax and never
    lowers the net salary, whatever the other inputs are. *)
Theorem special_deduction_favours_net (b p m u h i ma d d' : Q) :
  d <= d' ->
  exists res res',
    script b p m u h i ma d = Some res /\
    script b p m u h i ma d' = Some res' /\
    r_income_tax res' <= r_income_tax res /\
    r_net_salary res <= r_net_salary res'.
Proof.
  intros Hdd.
  destruct (script_facts b p m u h i ma d)
    as (res & Hs & _ & Htot & Hti & Htax & Hnet & _).
  destruct (script_facts b p m u h i ma d')
    as (res' & Hs' & _ & Htot' & Hti' & Htax' & Hnet' & _).
  exists res, res'. split; [exact Hs|]. split; [exact Hs'|].
  assert (Hx : 0 <= r_taxable_income res')
    by (rewrite Hti'; apply Q.le_max_l).
  assert (Hle : r_taxable_income res' <= r_taxable_income res).
  { rewrite Htot in Hti. rewrite Htot' in Hti'.
    split_taxable Hti; split_taxable Hti'; lra. }
  destruct (income_tax_step _ _ _ _ Hx Hle Htax' Htax) as [Hstep _].
  rewrite Htot in Hnet. rewrite Htot' in Hnet'. split; lra.
Qed.

Lemma special_deduction_favours_net_witness :
  0 <= 1000 /\
  exists res res',
    script 15000 8 2 0.5 7 0.2 0 0 = Some res /\
    script 15000 8 2 0.5 7 0.2 0 1000 = Some res' /\
    r_income_tax res' <= r_income_tax res /\
    r_net_salary res <= r_net_salary res'.
Proof.
  split; [lra|].
  apply (special_deduction_favours_net 15000 8 2 0.5 7 0.2 0 0 1000). lra.
Defined.

(** *** Analysis and report *)

Lemma analysis_positive (b : Q) (res : PayrollResult Q) :
  0 < b ->
  analysis b res =
    Some (Some {| bar_net := PyNum.min 1 (r_net_salary res / b);
                  bar_insurance := PyNum.min 1 (r_total_insurance res / b);
                  bar_tax := PyNum.min 1 (r_income_tax res / b);
                  pct_net := r_net_salary res / b * 100;
                  pct_insurance := r_total_insurance res / b * 100;
                  pct_tax := r_income_tax res / b * 100 |}).
Proof.
  intros Hb. unfold analysis.
  replace (n_int 0 <? b)%num with true by (symmetry; apply Q_lt_spec, Hb).
  rewrite !truediv_Q by lra. reflexivity.
Qed.

Lemma share_in_unit (x b : Q) :
  0 < b -> 0 <= x -> x <= b -> 0 <= x / b /\ x / b <= 1.
Proof.
  intros Hb Hx Hxb. split.
  - apply Qle_shift_div_l; [exact Hb|]. lra.
  - apply Qle_shift_div_r; [exact Hb|]. lra.
Qed.

(** X11: on what the sidebar can deliver: at base salary 0 the warning
    is shown; at a positive base salary each of the three progress bars
    receives a value between 0 and 1, and that value is the ratio itself
    (the [min(1.0, ...)] never cuts it). *)
Theorem analysis_bars_within_unit (b p m u h i ma d : Q) :
  sidebar_admits b p m u h i ma d = true ->
  exists res,
    script b p m u h i ma d = Some res /\
    (b <= 0 -> analysis b res = Some None) /\
    (0 < b ->
     exists a,
       analysis b res = Some (Some a) /\
       bar_net a == r_net_salary res / b /\
       bar_insurance a == r_total_insurance res / b /\
       bar_tax a == r_income_tax res / b /\
       Forall (fun v => 0 <= v /\ v <= 1)
         [bar_net a; bar_insurance a; bar_tax a]).
Proof.
  intros Hadm.
  destruct (run_bounds_aux b p m u h i ma d Hadm)
    as (res & Hs & Ht0 & Ht1 & Hx0 & Hx1 & Hi0 & Hi1 & Hn0 & Hn1 & Hsum).
  exists res. split; [exact Hs|]. split.
  - intros Hb. unfold analysis.
    replace (n_int 0 <? b)%num with false; [reflexivity|].
    symmetry. apply Q_lt_false, Hb.
  - intros Hb. eexists. split; [apply analysis_positive, Hb|].
    cbn [bar_net bar_insurance bar_tax].
    assert (Htb : r_total_insurance res <= b) by lra.
    assert (Hib : r_income_tax res <= b) by lra.
    destruct (share_in_unit _ b Hb Hn0 Hn1) as [Hq1 Hq1'].
    destruct (share_in_unit _ b Hb Ht0 Htb) as [Hq2 Hq2'].
    destruct (share_in_unit _ b Hb Hi0 Hib) as [Hq3 Hq3'].
    pose proof (min_one_Q _ Hq1') as E1.
    pose proof (min_one_Q _ Hq2') as E2.
    pose proof (min_one_Q _ Hq3') as E3.
    split; [exact E1|]. split; [exact E2|]. split; [exact E3|].
    repeat (apply List.Forall_cons;
            [first [rewrite E1 | rewrite E2 | rewrite E3];
             split; assumption|]).
    apply List.Forall_nil.
Qed.

Lemma analysis_bars_within_unit_witness :
  sidebar_admits 15000 8 2 0.5 7 0.2 0 1000 = true /\
  0 < 15000 /\
  exists res a,
    script 15000 8 2 0.5 7 0.2 0 1000 = Some res /\
    analysis 15000 res = Some (Some a) /\
    Forall (fun v => 0 <= v /\ v <= 1)
      [bar_net a; bar_insurance a; bar_tax a].
Proof.
  split; [reflexivity|]. split; [lra|].
  destruct (analysis_bars_within_unit 15000 8 2 0.5 7 0.2 0 1000 eq_refl)
    as (res & Hs & _ & Hpos).
  destruct Hpos as (a & Ha & _ & _ & _ & Hbars); [lra|].
  exists res, a. repeat split; assumption.
Defined.

Lemma analysis_total (b : Q) (res : PayrollResult Q) :
  is_Some (analysis b res).
Proof.
  destruct (Qlt_le_dec 0 b) as [Hb|Hb].
  - rewrite (analysis_positive b res Hb). eauto.
  - unfold analysis.
    replace (n_int 0 <? b)%num with false; [eauto|].
    symmetry. apply Q_lt_false, Hb.
Qed.

Lemma breakdown_lookups (b p m u i ma h : Q) :
  let insurance :=
    [("养老保险"%string, b * p / 100); ("医疗保险"%string, b * m / 100);
     ("失业保险"%string, b * u / 100); ("工伤保险"%string, b * i / 100);
     ("生育保险"%string, b * ma / 100);
     ("住房公积金"%string, b * h / 100)] in
  PyNum.odict_getitem insurance "养老保险" = Some (b * p / 100) /\
  PyNum.odict_getitem insurance "医疗保险" = Some (b * m / 100) /\
  PyNum.odict_getitem insurance "失业保险" = Some (b * u / 100) /\
  PyNum.odict_getitem insurance "工伤保险" = Some (b * i / 100) /\
  PyNum.odict_getitem insurance "生育保险" = Some (b * ma / 100) /\
  PyNum.odict_getitem insurance "住房公积金" = Some (b * h / 100).
Proof. repeat split; reflexivity. Qed.

(** The report of a run, once the six labels are looked up. *)
Lemma report_unfold (b p m u h i ma : Q) (res : PayrollResult Q) :
  r_insurance res =
    [("养老保险"%string, b * p / 100); ("医疗保险"%string, b * m / 100);
     ("失业保险"%string, b * u / 100); ("工伤保险"%string, b * i / 100);
     ("生育保险"%string, b * ma / 100);
     ("住房公积金"%string, b * h / 100)] ->
  report b p m u h i ma res =
    (q_net ← PyNum.truediv (r_net_salary res) b;
     q_insurance ← PyNum.truediv (r_total_insurance res) b;
     q_tax ← PyNum.truediv (r_income_tax res) b;
     Some {| rep_base_salary := b;
             rep_insurance :=
               [(b * p / 100, p); (b * m / 100, m); (b * u / 100, u);
                (b * i / 100, i); (b * ma / 100, ma); (b * h / 100, h)];
             rep_taxable_income := r_taxable_income res;
             rep_tax_rate_percent := r_tax_rate res * 100;
             rep_income_tax := r_income_tax res;
             rep_net_salary := r_net_salary res;
             rep_net_share := q_net * 100;
             rep_insurance_share := q_insurance * 100;
             rep_tax_share := q_tax * 100 |}).
Proof.
  intros Hins. unfold report. rewrite Hins.
  destruct (breakdown_lookups b p m u i ma h)
    as (-> & -> & -> & -> & -> & ->).
  reflexivity.
Qed.

(** X12: the page itself always renders, but pressing the report button
    raises ([ZeroDivisionError]) exactly when the base salary is 0: the
    report divides by the base salary without the guard the analysis
    has. *)
Theorem report_raises_exactly_at_zero_base (b p m u h i ma d : Q) :
  is_Some (page b p m u h i ma d false) /\
  (is_Some (page b p m u h i ma d true) <-> ~ b == 0).
Proof.
  destruct (script_facts b p m u h i ma d) as (res & Hs & Hins & _).
  destruct (analysis_total b res) as [shown Hshown].
  unfold page. rewrite Hs. cbn [mbind option_bind].
  rewrite Hshown. cbn [mbind option_bind].
  split; [eauto|].
  rewrite (report_unfold b p m u h i ma res Hins).
  split.
  - intros Hsome Hb. apply is_zero_Q in Hb.
    unfold PyNum.truediv in Hsome. rewrite Hb in Hsome.
    cbn [mbind option_bind] in Hsome. destruct Hsome. discriminate.
  - intros Hb. rewrite !truediv_Q by exact Hb. cbn [mbind option_bind].
    eauto.
Qed.

(** X13: whenever the base salary is not 0 the report is produced; each
    of its six insurance lines pairs the amount found under its label,
    [base * rate / 100] as [calculate_insurance] computed it, with the
    rate of the matching slider, and the salary figures are those of the
    run. *)
Theorem report_lines_pair_amount_and_rate (b p m u h i ma d : Q) :
  ~ b == 0 ->
  exists res rep,
    script b p m u h i ma d = Some res /\
    report b p m u h i ma res = Some rep /\
    rep_insurance rep =
      [(b * p / 100, p); (b * m / 100, m); (b * u / 100, u);
       (b * i / 100, i); (b * ma / 100, ma); (b * h / 100, h)] /\
    rep_base_salary rep = b /\
    rep_taxable_income rep = r_taxable_income res /\
    rep_tax_rate_percent rep = r_tax_rate res * 100 /\
    rep_income_tax rep = r_income_tax res /\
    rep_net_salary rep = r_net_salary res.
Proof.
  intros Hb.
  destruct (script_facts b p m u h i ma d) as (res & Hs & Hins & _).
  exists res. eexists. split; [exact Hs|]. split.
  - rewrite (report_unfold b p m u h i ma res Hins).
    rewrite !truediv_Q by exact Hb. reflexivity.
  - cbn [rep_insurance rep_base_salary rep_taxable_income
           rep_tax_rate_percent rep_income_tax rep_net_salary].
    repeat split; reflexivity.
Qed.

Lemma report_lines_pair_amount_and_rate_witness :
  ~ 15000 == 0 /\
  exists res rep,
    script 15000 8 2 0.5 7 0.2 0 1000 = Some res /\
    report 15000 8 2 0.5 7 0.2 0 res = Some rep /\
    rep_insurance rep =
      [(15000 * 8 / 100, 8); (15000 * 2 / 100, 2); (15000 * 0.5 / 100, 0.5);
       (15000 * 0.2 / 100, 0.2); (15000 * 0 / 100, 0);
       (15000 * 7 / 100, 7)].
Proof.
  assert (Hb : ~ 15000 == 0) by (intros Hc; discriminate Hc).
  split; [exact Hb|].
  destruct (report_lines_pair_amount_and_rate 15000 8 2 0.5 7 0.2 0 1000 Hb)
    as (res & rep & Hs & Hrep & Hlines & _).
  exists res, rep. repeat split; assumption.
Defined.

(** *** Presets *)

(** X14: a city has slider defaults exactly when it is one of the cities
    offered, and for every such city the values the page starts with (base
    salary 15000, the six preset rates, special deduction 1000) are within
    the bounds of their widgets; the city selected at first is offered. *)
Theorem presets_fit_sliders (city : string) :
  (is_Some (slider_defaults (T:=Q) city) <-> city ∈ city_options (T:=Q)) /\
  (forall defaults : list Q,
      slider_defaults city = Some defaults ->
      exists p m u h i ma,
        defaults = [p; m; u; h; i; ma] /\
        sidebar_admits default_base_salary p m u h i ma
          default_special_deduction = true) /\
  (exists first, default_city (T:=Q) = Some first /\
                 first ∈ city_options (T:=Q)).
Proof.
  assert (Hopts : city_options (T:=Q) = ["上海"; "北京"; "广州"; "深圳"]%string)
    by reflexivity.
  rewrite Hopts. unfold slider_defaults, CITY_PRESETS.
  cbn [PyNum.odict_getitem].
  repeat match goal with
         | |- context [decide (city = ?c)] =>
             destruct (decide (city = c)) as [->|?]
         end.
  1-4: split;
    [split; [intros _; set_solver | intros _; vm_compute; eauto]
    |split;
     [intros defaults Hd; vm_compute in Hd; injection Hd as <-;
      eexists _, _, _, _, _, _; split; reflexivity
     |eexists; split; [reflexivity|set_solver]]].
  split; [|split].
  - cbn [mbind option_bind]. split; [intros [? ?]; discriminate|].
    intros Hin.
    repeat (apply elem_of_cons in Hin as [->|Hin]; [congruence|]).
    apply elem_of_nil in Hin. destruct Hin.
  - intros defaults Hd. discriminate Hd.
  - eexists; split; [reflexivity|set_solver].
Qed.

Lemma presets_fit_sliders_witness :
  exists p m u h i ma : Q,
    slider_defaults "北京" = Some [p; m; u; h; i; ma] /\
    sidebar_admits default_base_salary p m u h i ma
      default_special_deduction = true.
Proof.
  destruct (presets_fit_sliders "北京") as (_ & Hfit & _).
  destruct (Hfit [8; 2; 0.5; 12; 0.2; 0] eq_refl)
    as (p & m & u & h & i & ma & Heq & Hadm).
  injection Heq as <- <- <- <- <- <-.
  eexists _, _, _, _, _, _. split; [reflexivity|exact Hadm].
Defined.

End Run.

(** ** The report at base salary 0, in any arithmetic *)

Section ReportAtZero.
Context {T : Type} `{Number T}.

(** With the base salary 0 every lookup of the report succeeds and its
    first division raises, whatever the rates are: it is enough that the
    arithmetic finds [0 == 0] and not [0 > 0]. *)
Lemma page_raises_at_zero_base (p m u h i ma d : T) :
  PyNum.is_zero (n_int (T:=T) 0) = true ->
  (n_int (T:=T) 0 <? n_int 0)%num = false ->
  page (n_int 0) p m u h i ma d true = None /\
  is_Some (page (n_int 0) p m u h i ma d false).
Proof.
  intros Hzero Hlt.
  destruct (script_returns (n_int 0) p m u h i ma d)
    as (ins & tax & rate & ded & Hins & _ & _ & _ & Hs).
  cbv zeta in Hs.
  change (calculate_insurance (n_int 0) (insurance_rates p m u i ma h))
    with (Some [("养老保险"%string, (n_int 0 * p / n_int 100)%num);
                ("医疗保险"%string, (n_int 0 * m / n_int 100)%num);
                ("失业保险"%string, (n_int 0 * u / n_int 100)%num);
                ("工伤保险"%string, (n_int 0 * i / n_int 100)%num);
                ("生育保险"%string, (n_int 0 * ma / n_int 100)%num);
                ("住房公积金"%string, (n_int 0 * h / n_int 100)%num)])
    in Hins.
  injection Hins as <-.
  unfold page. rewrite Hs. cbn [mbind option_bind].
  unfold analysis. rewrite Hlt. cbn [mbind option_bind].
  split; [|eauto].
  unfold report, PyNum.truediv. rewrite Hzero. reflexivity.
Qed.

End ReportAtZero.

(** In binary64 the report raises at base salary 0 for all rates. *)
Lemma page_raises_at_zero_base_binary64 (p m u h i ma d : float) :
  page 0%float p m u h i ma d true = None /\
  is_Some (page 0%float p m u h i ma d false).
Proof.
  change 0%float with (n_int (T:=float) 0).
  exact (page_raises_at_zero_base p m u h i ma d eq_refl eq_refl).
Qed.

(** ** Where the doubles depart from exact arithmetic

    The statements above that speak of exact arithmetic hold of the
    script's doubles only up to rounding; these runs show it. *)

Section Binary64Rounding.
Local Open Scope float_scope.

(** The tax does not move between 55000 and the next double, and from 100
    to 101 it rises by less than 3% of 1. *)
Lemma marginal_rate_binary64 :
  calculate_tax 55000 = Some 12090 /\
  calculate_tax (PrimFloat.next_up 55000) = Some 12090 /\
  exists t t',
    calculate_tax 100 = Some t /\ calculate_tax 101 = Some t' /\
    PrimFloat.ltb (t' - t) (0.03 * (101 - 100)) = true.
Proof.
  split; [reflexivity|]. split; [reflexivity|].
  eexists _, _. repeat split; reflexivity.
Qed.

(** From 1000 to 1001 the share of the income that goes to tax falls in
    the last bits. *)
Lemma progressive_binary64 :
  exists t t',
    calculate_tax 1000 = Some t /\ calculate_tax 1001 = Some t' /\
    t * 1001 = 30030 /\ t' * 1000 = 30029.999999999996 /\
    PrimFloat.ltb (t' * 1000) (t * 1001) = true.
Proof. eexists _, _. repeat split; reflexivity. Qed.

(** At 3001 the quick-deduction formula gives 90.10000000000002, the two
    brackets added give the double nearest 90.1. *)
Lemma bracketwise_binary64 :
  calculate_tax 3001 = Some 90.100000000000023 /\
  0.03 * 3000 + 0.1 * (3001 - 3000) = 90.099999999999994 /\
  PrimFloat.eqb 90.100000000000023 (0.03 * 3000 + 0.1 * (3001 - 3000))
    = false.
Proof. repeat split; reflexivity. Qed.

(** With the six sliders at their maxima and no special deduction, the
    base salary 9007199254730049 gives a net salary 1 below that of
    9007199254730048. *)
Lemma raise_lowers_net_binary64 :
  sidebar_admits 9007199254730048 20 12 2 12 2 1 0 = true /\
  sidebar_admits 9007199254730049 20 12 2 12 2 1 0 = true /\
  exists res res',
    script 9007199254730048 20 12 2 12 2 1 0 = Some res /\
    script 9007199254730049 20 12 2 12 2 1 0 = Some res' /\
    r_net_salary res = 2526519390969189 /\
    r_net_salary res' = 2526519390969188.
Proof.
  split; [reflexivity|]. split; [reflexivity|].
  eexists _, _. split; [vm_compute; reflexivity|].
  split; [vm_compute; reflexivity|]. split; reflexivity.
Qed.

End Binary64Rounding.
